(** * botkube [pkg/api/message.go]: message schema, predicates and button builder

    A shallow embedding of the Go package [api] (file [message.go]) and the
    properties of its predicate helpers and of [ButtonBuilder].

    Conventions of the embedding:
    - a Go [string] is a [string]; the string-based enums ([ButtonStyle],
      [SelectType], ...) are [string] with their named constants;
    - a Go slice is a [slice]: either the nil slice or a backing list, so that
      [var out T] followed by [append] can be told apart from a nil result;
    - a Go pointer is a [ptr] ([None] is [nil]); a method with a pointer
      receiver that reads a field of its receiver goes through [deref], which
      panics on [nil]; such methods return a [result];
    - a struct is a record inside a module named after the struct, so that
      [Button.Name] and [Select.Name] are different projections. *)

From Stdlib Require Import Ascii String List Bool ZArith Arith Lia Permutation.
Import ListNotations.
Local Open Scope string_scope.

(** ** The Go runtime notions the file relies on *)

Module Go.

(** Outcome of a call: a value, or a run-time panic (here always a nil
    pointer dereference). *)
Inductive result (A : Type) : Type :=
| Ok (a : A)
| Panic.
Arguments Ok {A} a.
Arguments Panic {A}.

Definition bind {A B : Type} (r : result A) (k : A -> result B) : result B :=
  match r with
  | Ok a => k a
  | Panic => Panic
  end.

(** A pointer: [None] is [nil]. *)
Definition ptr (A : Type) : Type := option A.

Definition is_nil {A : Type} (p : ptr A) : bool :=
  match p with
  | None => true
  | Some _ => false
  end.

(** Reading through a pointer. *)
Definition deref {A : Type} (p : ptr A) : result A :=
  match p with
  | Some a => Ok a
  | None => Panic
  end.

(** A slice: the nil slice, or a slice over some elements (possibly none). *)
Inductive slice (A : Type) : Type :=
| SliceNil
| SliceOf (l : list A).
Arguments SliceNil {A}.
Arguments SliceOf {A} l.

(** The elements a [range] loop visits, in order. *)
Definition elems {A : Type} (s : slice A) : list A :=
  match s with
  | SliceNil => []
  | SliceOf l => l
  end.

Definition len {A : Type} (s : slice A) : nat := List.length (elems s).

(** [append(s, x)]: the result is never nil. *)
Definition append {A : Type} (s : slice A) (x : A) : slice A :=
  SliceOf (elems s ++ [x]).

(** [fmt.Sprintf("%s %s", a, b)] on string arguments. *)
Definition Sprintf_s_s (a b : string) : string := a ++ " " ++ b.

End Go.

Import Go.

Declare Scope go_scope.
Notation "x <- c ;; k" := (bind c (fun x => k))
  (at level 61, c at next level, right associativity) : go_scope.
Local Open Scope go_scope.

(** ** [time.Time] of the Go standard library

    [Message.Timestamp] is a [time.Time]; the only operation used on it is
    [IsZero]. The representation and [IsZero] follow package [time]:
    [wall] is an unsigned 64-bit word, [ext] a signed 64-bit word and [loc] a
    pointer to a location (kept by name). *)

Module Time.

Record t : Type := mk {
  wall : Z;
  ext : Z;
  loc : ptr string
}.

Definition zero : t := {| wall := 0; ext := 0; loc := None |}.

Definition hasMonotonic : Z := Z.shiftl 1 63.
Definition nsecMask : Z := Z.shiftl 1 30 - 1.
Definition nsecShift : Z := 30.
Definition secondsPerDay : Z := 86400.
Definition wallToInternal : Z :=
  (1884 * 365 + 1884 / 4 - 1884 / 100 + 1884 / 400) * secondsPerDay.

Definition u64 (x : Z) : Z := x mod 2 ^ 64.

(** [int32(t.wall & nsecMask)]; the masked value fits in 30 bits. *)
Definition nsec (x : t) : Z := Z.land (wall x) nsecMask.

Definition sec (x : t) : Z :=
  if negb (Z.land (wall x) hasMonotonic =? 0)%Z
  then (wallToInternal + Z.shiftr (u64 (Z.shiftl (wall x) 1)) (nsecShift + 1))%Z
  else ext x.

Definition IsZero (x : t) : bool :=
  (sec x =? 0)%Z && (nsec x =? 0)%Z.

End Time.

(** ** String-based enums and their constants *)

Definition ButtonStyle : Type := string.
Definition ButtonStyleDefault : ButtonStyle := "".
Definition ButtonStylePrimary : ButtonStyle := "primary".
Definition ButtonStyleDanger : ButtonStyle := "danger".

Definition SelectType : Type := string.
Definition StaticSelect : SelectType := "static".
Definition ExternalSelect : SelectType := "external".

Definition DividerStyle : Type := string.
Definition DividerStyleDefault : DividerStyle := "".
Definition DividerStyleTopNone : DividerStyle := "none".

Definition MessageType : Type := string.
Definition DefaultMessage : MessageType := "".
Definition BasicCardWithButtonsInSeparateMsg : string :=
  "basicCardWithButtonsInSeparateMessage".
Definition BaseBodyWithFilterMessage : MessageType := "baseBodyWithFilter".
Definition NonInteractiveSingleSection : MessageType :=
  "nonInteractiveEventSingleSection".
Definition PopupMessage : MessageType := "form".
Definition ThreadMessage : MessageType := "threadMessage".
Definition SkipMessage : MessageType := "skipMessage".

Definition DispatchedInputAction : Type := string.
Definition NoDispatchInputAction : DispatchedInputAction := "".
Definition DispatchInputActionOnEnter : DispatchedInputAction := "on_enter_pressed".
Definition DispatchInputActionOnCharacter : DispatchedInputAction :=
  "on_character_entered".

Definition ButtonDescriptionStyle : Type := string.
Definition ButtonDescriptionStyleBold : ButtonDescriptionStyle := "bold".
Definition ButtonDescriptionStyleText : ButtonDescriptionStyle := "text".
Definition ButtonDescriptionStyleCode : ButtonDescriptionStyle := "code".

(** ** The structs of the schema *)

Module Body.

Record t : Type := mk {
  CodeBlock : string;
  Plaintext : string
}.

(** The zero value [var emptyBase Body]. *)
Definition zero : t := {| CodeBlock := ""; Plaintext := "" |}.

(** Go's [==] on the struct: field by field. *)
Definition eqb (a b : t) : bool :=
  String.eqb (CodeBlock a) (CodeBlock b) && String.eqb (Plaintext a) (Plaintext b).

End Body.

Module Base.

Record t : Type := mk {
  Header : string;
  Description : string;
  Body : Body.t
}.

End Base.

Module SectionStyle.

Record t : Type := mk {
  Divider : DividerStyle
}.

End SectionStyle.

Module OptionItem.

Record t : Type := mk {
  Name : string;
  Value : string
}.

End OptionItem.

Module OptionGroup.

Record t : Type := mk {
  Name : string;
  Options : slice OptionItem.t
}.

End OptionGroup.

Module Select.

Record t : Type := mk {
  Type_ : SelectType;
  Name : string;
  Command : string;
  OptionGroups : slice OptionGroup.t;
  InitialOption : ptr OptionItem.t
}.

End Select.

Module Selects.

Record t : Type := mk {
  ID : string;
  Items : slice Select.t
}.

(** AreOptionsDefined returns true if some options are available. *)
Definition AreOptionsDefined (s : ptr t) : result bool :=
  if is_nil s then Ok false
  else
    s' <- deref s ;;
    Ok (Nat.ltb 0 (len (Items s'))).

End Selects.

Module MultiSelect.

Record t : Type := mk {
  Name : string;
  Description : Body.t;
  Command : string;
  Options : slice OptionItem.t;
  InitialOptions : slice OptionItem.t
}.

(** AreOptionsDefined returns true if some options are available. *)
Definition AreOptionsDefined (m : ptr t) : result bool :=
  if is_nil m then Ok false
  else
    m' <- deref m ;;
    if Nat.eqb (len (Options m')) 0 then Ok false
    else Ok true.

End MultiSelect.

Module LabelInput.

Record t : Type := mk {
  Command : string;
  Text : string;
  Placeholder : string;
  DispatchedAction : DispatchedInputAction
}.

End LabelInput.

Definition LabelInputs : Type := slice LabelInput.t.

Module TextField.

Record t : Type := mk {
  Key : string;
  Value : string
}.

(** IsEmpty returns true if all fields have zero-value. *)
Definition IsEmpty (x : ptr t) : result bool :=
  x' <- deref x ;;
  Ok (String.eqb (Value x') "" && String.eqb (Key x') "").

End TextField.

Definition TextFields : Type := slice TextField.t.

Module BulletList.

Record t : Type := mk {
  Title : string;
  Items : slice string
}.

End BulletList.

Module BulletLists.

Definition t : Type := slice BulletList.t.

(** The [range] loop of [AreItemsDefined], with its early [return true]. *)
Fixpoint AreItemsDefined_range (rest : list BulletList.t) : bool :=
  match rest with
  | [] => false
  | list :: rest' =>
      if Nat.ltb 0 (len (BulletList.Items list)) then true
      else AreItemsDefined_range rest'
  end.

(** AreItemsDefined returns true if at least one list has items defined. *)
Definition AreItemsDefined (l : t) : bool :=
  AreItemsDefined_range (elems l).

End BulletLists.

Module ContextItem.

Record t : Type := mk {
  Text : string
}.

End ContextItem.

Module ContextItems.

Definition t : Type := slice ContextItem.t.

(** IsDefined returns true if there are any context items defined. *)
Definition IsDefined (c : t) : bool := Nat.ltb 0 (len c).

End ContextItems.

Module Button.

Record t : Type := mk {
  Description : string;
  DescriptionStyle : ButtonDescriptionStyle;
  Name : string;
  Command : string;
  URL : string;
  Style : ButtonStyle
}.

End Button.

Module Buttons.

Definition t : Type := slice Button.t.

(** One iteration of the loop of [GetButtonsWithDescription]. *)
Definition with_step (out : t) (item : Button.t) : t :=
  if String.eqb (Button.Description item) "" then out
  else append out item.

(** GetButtonsWithDescription returns all buttons with description. *)
Definition GetButtonsWithDescription (s : ptr t) : result t :=
  if is_nil s then Ok SliceNil
  else
    s' <- deref s ;;
    let out : t := SliceNil in
    Ok (fold_left with_step (elems s') out).

(** One iteration of the loop of [GetButtonsWithoutDescription]. *)
Definition without_step (out : t) (item : Button.t) : t :=
  if negb (String.eqb (Button.Description item) "") then out
  else append out item.

(** GetButtonsWithoutDescription returns all buttons without description. *)
Definition GetButtonsWithoutDescription (s : ptr t) : result t :=
  if is_nil s then Ok SliceNil
  else
    s' <- deref s ;;
    let out : t := SliceNil in
    Ok (fold_left without_step (elems s') out).

End Buttons.

Module Section_.

Record t : Type := mk {
  Style : SectionStyle.t;
  Base : Base.t;
  Buttons : Buttons.t;
  MultiSelect : MultiSelect.t;
  Selects : Selects.t;
  PlaintextInputs : LabelInputs;
  TextFields : TextFields;
  BulletLists : BulletLists.t;
  Context : ContextItems.t
}.

End Section_.

Module Message.

Record t : Type := mk {
  Type_ : MessageType;
  BaseBody : Body.t;
  Timestamp : Time.t;
  Sections : slice Section_.t;
  PlaintextInputs : LabelInputs;
  OnlyVisibleForYou : bool;
  ReplaceOriginal : bool;
  UserHandle : string;
  ParentActivityID : string
}.

(** HasBaseBody returns true if message has base body defined. *)
Definition HasBaseBody (msg : ptr t) : result bool :=
  let emptyBase := Body.zero in
  m <- deref msg ;;
  Ok (negb (Body.eqb (BaseBody m) emptyBase)).

(** HasSections returns true if message has interactive sections. *)
Definition HasSections (msg : ptr t) : result bool :=
  m <- deref msg ;;
  Ok (negb (Nat.eqb (len (Sections m)) 0)).

(** HasInputs returns true if message has interactive inputs. *)
Definition HasInputs (msg : ptr t) : result bool :=
  m <- deref msg ;;
  Ok (negb (Nat.eqb (len (PlaintextInputs m)) 0)).

Definition IsEmpty (msg : ptr t) : result bool :=
  b1 <- HasBaseBody msg ;;
  if b1 then Ok false
  else
    b2 <- HasInputs msg ;;
    if b2 then Ok false
    else
      b3 <- HasSections msg ;;
      if b3 then Ok false
      else
        m <- deref msg ;;
        if negb (Time.IsZero (Timestamp m)) then Ok false
        else Ok true.

End Message.

(** ** The button builder

    [MessageBotNamePlaceholder] is a constant of package [api] declared in
    another file; the builder is embedded over an arbitrary value of it.
    The receiver [b *ButtonBuilder] points to an empty struct and is never
    read, so it is not an argument here. A variadic [style ...ButtonStyle]
    is the list of the trailing arguments. *)

Module ButtonBuilder.

Section WithPlaceholder.

Variable MessageBotNamePlaceholder : string.

Definition commandWithDesc (name cmd desc : string) (style : ButtonStyle)
    (descStyle : ButtonDescriptionStyle) : Button.t :=
  let cmd := Sprintf_s_s MessageBotNamePlaceholder cmd in
  {| Button.Name := name;
     Button.Command := cmd;
     Button.Description := desc;
     Button.DescriptionStyle := descStyle;
     Button.URL := "";
     Button.Style := style |}.

Definition commandWithCmdDesc (name cmd desc : string) (style : ButtonStyle)
    : Button.t :=
  let desc := Sprintf_s_s MessageBotNamePlaceholder desc in
  commandWithDesc name cmd desc style ButtonDescriptionStyleCode.

(** ForCommandWithDescCmd returns button command where description and
    command are the same. *)
Definition ForCommandWithDescCmd (name cmd : string) (style : list ButtonStyle)
    : Button.t :=
  let bt := ButtonStyleDefault in
  let bt := if Nat.ltb 0 (List.length style) then hd bt style else bt in
  commandWithCmdDesc name cmd cmd bt.

(** ForCommandWithBoldDesc returns button command where description and
    command are different. *)
Definition ForCommandWithBoldDesc (name desc cmd : string)
    (style : list ButtonStyle) : Button.t :=
  let bt := ButtonStyleDefault in
  let bt := if Nat.ltb 0 (List.length style) then hd bt style else bt in
  commandWithDesc name cmd desc bt ButtonDescriptionStyleBold.

(** DescriptionURL returns link button with description. *)
Definition DescriptionURL (name cmd url : string) (style : list ButtonStyle)
    : Button.t :=
  let bt := ButtonStyleDefault in
  let bt := if Nat.ltb 0 (List.length style) then hd bt style else bt in
  {| Button.Name := name;
     Button.Description := Sprintf_s_s MessageBotNamePlaceholder cmd;
     Button.URL := url;
     Button.Style := bt;
     Button.Command := "";
     Button.DescriptionStyle := "" |}.

(** ForCommandWithoutDesc returns button command without description. *)
Definition ForCommandWithoutDesc (name cmd : string) (style : list ButtonStyle)
    : Button.t :=
  let bt := ButtonStyleDefault in
  let bt := if Nat.ltb 0 (List.length style) then hd bt style else bt in
  let cmd := Sprintf_s_s MessageBotNamePlaceholder cmd in
  {| Button.Name := name;
     Button.Command := cmd;
     Button.Style := bt;
     Button.Description := "";
     Button.DescriptionStyle := "";
     Button.URL := "" |}.

(** ForCommand returns button command with description in adaptive code
    block. *)
Definition ForCommand (name cmd desc : string) (style : list ButtonStyle)
    : Button.t :=
  let bt := ButtonStyleDefault in
  let bt := if Nat.ltb 0 (List.length style) then hd bt style else bt in
  commandWithCmdDesc name cmd desc bt.

(** ForURL returns link button. *)
Definition ForURL (name url : string) (style : list ButtonStyle) : Button.t :=
  let bt := ButtonStyleDefault in
  let bt := if Nat.ltb 0 (List.length style) then hd bt style else bt in
  {| Button.Name := name;
     Button.URL := url;
     Button.Style := bt;
     Button.Description := "";
     Button.DescriptionStyle := "";
     Button.Command := "" |}.

(** Assigning the two description fields of a button value. *)
Definition set_description (urlBtn : Button.t) (desc : string)
    (descStyle : ButtonDescriptionStyle) : Button.t :=
  {| Button.Description := desc;
     Button.DescriptionStyle := descStyle;
     Button.Name := Button.Name urlBtn;
     Button.Command := Button.Command urlBtn;
     Button.URL := Button.URL urlBtn;
     Button.Style := Button.Style urlBtn |}.

(** ForURLWithBoldDesc returns link button with description. *)
Definition ForURLWithBoldDesc (name desc url : string)
    (style : list ButtonStyle) : Button.t :=
  let urlBtn := ForURL name url style in
  set_description urlBtn desc ButtonDescriptionStyleBold.

Definition ForURLWithTextDesc (name desc url : string)
    (style : list ButtonStyle) : Button.t :=
  let urlBtn := ForURL name url style in
  set_description urlBtn desc ButtonDescriptionStyleText.

End WithPlaceholder.

End ButtonBuilder.

(** ** Notions used to state the properties *)

(** A call returns when it yields a value instead of panicking. *)
Definition returns {A : Type} (r : result A) : Prop := exists a : A, r = Ok a.

(** The test both loops make on an item, read positively. *)
Definition has_description (b : Button.t) : bool :=
  negb (String.eqb (Button.Description b) "").

(** The reading of "offers at least one selectable option" for a [Selects]:
    some contained [Select] has an option group that holds an option. This
    definition follows the wording of the specification, not the code; it is
    what [Selects.AreOptionsDefined] is compared with below. *)
Definition spec_select_has_option (sel : Select.t) : Prop :=
  exists g : OptionGroup.t,
    In g (elems (Select.OptionGroups sel)) /\ elems (OptionGroup.Options g) <> [].

Definition spec_selects_offer_option (s : Selects.t) : Prop :=
  exists sel : Select.t,
    In sel (elems (Selects.Items s)) /\ spec_select_has_option sel.

(** A [Selects] block holding one static select that has no option group. *)
Definition selects_one_bare_select : Selects.t :=
  {| Selects.ID := "";
     Selects.Items :=
       SliceOf [ {| Select.Type_ := StaticSelect;
                    Select.Name := "namespace";
                    Select.Command := "";
                    Select.OptionGroups := SliceNil;
                    Select.InitialOption := None |} ] |}.

(** A message with nothing set but a timestamp at the zero instant that
    carries a location, as [time.Time{}.Local()] builds it. *)
Definition message_zero_instant_local : Message.t :=
  {| Message.Type_ := DefaultMessage;
     Message.BaseBody := Body.zero;
     Message.Timestamp :=
       {| Time.wall := 0; Time.ext := 0; Time.loc := Some "Local" |};
     Message.Sections := SliceNil;
     Message.PlaintextInputs := SliceNil;
     Message.OnlyVisibleForYou := false;
     Message.ReplaceOriginal := false;
     Message.UserHandle := "";
     Message.ParentActivityID := "" |}.

(** Unfolding a method call down to its [Ok] or [Panic]. *)
Ltac go_run :=
  unfold Selects.AreOptionsDefined, MultiSelect.AreOptionsDefined,
    Buttons.GetButtonsWithDescription, Buttons.GetButtonsWithoutDescription,
    TextField.IsEmpty, Message.HasBaseBody, Message.HasSections,
    Message.HasInputs;
  simpl.

(** * Properties *)

Local Open Scope list_scope.

(** ** Slices, pointers and struct equality *)

Lemma len_zero_elems {A : Type} (s : slice A) :
  len s = 0 <-> elems s = [].
Proof.
  unfold len. destruct (elems s); simpl; split; intro H;
    congruence || discriminate.
Qed.

Lemma ltb_0_len {A : Type} (s : slice A) :
  Nat.ltb 0 (len s) = true <-> elems s <> [].
Proof.
  unfold len. destruct (elems s) as [|x l]; simpl.
  - split; [discriminate | intro H; now elim H].
  - split; [discriminate | reflexivity].
Qed.

Lemma Body_eqb_eq (a b : Body.t) :
  Body.eqb a b = true <-> a = b.
Proof.
  destruct a as [c1 p1], b as [c2 p2]. unfold Body.eqb; simpl.
  rewrite andb_true_iff, !String.eqb_eq.
  split.
  - intros [-> ->]. reflexivity.
  - intro H. injection H as -> ->. split; reflexivity.
Qed.

Lemma Body_eqb_neq (a b : Body.t) :
  Body.eqb a b = false <-> a <> b.
Proof.
  rewrite <- Body_eqb_eq. destruct (Body.eqb a b); split; intro H;
    congruence || (now elim H) || discriminate.
Qed.

(** The zero value of [time.Time] is a zero time. *)
Lemma Time_zero_IsZero : Time.IsZero Time.zero = true.
Proof. reflexivity. Qed.

(** ** [Message]: emptiness *)

(** On a non-nil receiver the three existence checks return without
    panicking; these equations are what [IsEmpty] branches on. *)
Lemma HasBaseBody_some (m : Message.t) :
  Message.HasBaseBody (Some m) =
  Ok (negb (Body.eqb (Message.BaseBody m) Body.zero)).
Proof. reflexivity. Qed.

Lemma HasSections_some (m : Message.t) :
  Message.HasSections (Some m) =
  Ok (negb (Nat.eqb (len (Message.Sections m)) 0)).
Proof. reflexivity. Qed.

Lemma HasInputs_some (m : Message.t) :
  Message.HasInputs (Some m) =
  Ok (negb (Nat.eqb (len (Message.PlaintextInputs m)) 0)).
Proof. reflexivity. Qed.

Lemma Ok_inj {A : Type} (a b : A) : Ok a = Ok b <-> a = b.
Proof. split; [intro H; now injection H | now intros ->]. Qed.

(** On a non-nil receiver [IsEmpty] returns a boolean. *)
Lemma IsEmpty_some_total (m : Message.t) :
  Message.IsEmpty (Some m) = Ok true \/ Message.IsEmpty (Some m) = Ok false.
Proof.
  unfold Message.IsEmpty.
  rewrite HasBaseBody_some, HasSections_some, HasInputs_some. simpl.
  destruct (negb (Body.eqb _ _)); [now right|].
  destruct (negb (Nat.eqb (len (Message.PlaintextInputs m)) 0)); [now right|].
  destruct (negb (Nat.eqb (len (Message.Sections m)) 0)); [now right|].
  destruct (Time.IsZero (Message.Timestamp m)); simpl; [now left | now right].
Qed.

(** [IsZero] tests the instant, not the representation. *)
Lemma Time_IsZero_iff (x : Time.t) :
  Time.IsZero x = true <-> Time.sec x = 0%Z /\ Time.nsec x = 0%Z.
Proof.
  unfold Time.IsZero. now rewrite andb_true_iff, !Z.eqb_eq.
Qed.

Lemma Time_IsZero_loc (x : Time.t) (l : ptr string) :
  Time.IsZero {| Time.wall := Time.wall x; Time.ext := Time.ext x; Time.loc := l |}
  = Time.IsZero x.
Proof. reflexivity. Qed.

(** Without a monotonic reading and with no nanoseconds, the instant is the
    [ext] word. *)
Lemma Time_IsZero_wall0 (x : Time.t) :
  Time.wall x = 0%Z -> (Time.IsZero x = true <-> Time.ext x = 0%Z).
Proof.
  intro Hw. rewrite Time_IsZero_iff. unfold Time.sec, Time.nsec.
  rewrite Hw. simpl. tauto.
Qed.

(** A timestamp with a monotonic reading lies in 1885 or later and is never
    zero. *)
Lemma Time_IsZero_monotonic (x : Time.t) :
  Z.land (Time.wall x) Time.hasMonotonic <> 0%Z -> Time.IsZero x = false.
Proof.
  intro Hm. unfold Time.IsZero, Time.sec.
  apply Z.eqb_neq in Hm. rewrite Hm. simpl negb. cbv iota.
  apply andb_false_iff. left. apply Z.eqb_neq.
  assert (H0 : (0 <= Z.shiftr (Time.u64 (Z.shiftl (Time.wall x) 1))
                       (Time.nsecShift + 1))%Z).
  { apply Z.shiftr_nonneg. unfold Time.u64. apply Z.mod_pos_bound. reflexivity. }
  assert (Hw : (0 < Time.wallToInternal)%Z) by reflexivity.
  lia.
Qed.

(** C1, as stated, fails: a message whose timestamp is the zero instant with
    a location set is empty, yet its [Timestamp] field is not the zero value
    of [time.Time]. *)
Lemma C1_zero_value_counterexample :
  Message.IsEmpty (Some message_zero_instant_local) = Ok true /\
  Message.Timestamp message_zero_instant_local <> Time.zero.
Proof.
  split; [reflexivity | discriminate].
Qed.

(** C1 (amended). For every [Message] value, [IsEmpty] returns [true]
    exactly when [HasBaseBody], [HasInputs] and [HasSections] all return
    [false] and [Timestamp.IsZero()] holds, and returns [false] otherwise;
    [HasBaseBody] is true iff [BaseBody] differs from the zero [Body],
    [HasSections] iff the [Sections] list is non-empty, [HasInputs] iff the
    [PlaintextInputs] list is non-empty. [Timestamp.IsZero()] holds iff the
    timestamp is the zero instant (seconds and nanoseconds both zero),
    whatever its location: the zero value of [time.Time] is such a timestamp,
    and with a zero [wall] word it holds iff [ext] is zero. *)
Theorem C1_IsEmpty_iff : forall m : Message.t,
  (Message.IsEmpty (Some m) = Ok true <->
     Message.HasBaseBody (Some m) = Ok false /\
     Message.HasInputs (Some m) = Ok false /\
     Message.HasSections (Some m) = Ok false /\
     Time.IsZero (Message.Timestamp m) = true) /\
  (Message.IsEmpty (Some m) = Ok true \/ Message.IsEmpty (Some m) = Ok false) /\
  (Message.HasBaseBody (Some m) = Ok true <-> Message.BaseBody m <> Body.zero) /\
  (Message.HasSections (Some m) = Ok true <-> elems (Message.Sections m) <> []) /\
  (Message.HasInputs (Some m) = Ok true <-> elems (Message.PlaintextInputs m) <> []) /\
  (Time.IsZero (Message.Timestamp m) = true <->
     Time.sec (Message.Timestamp m) = 0%Z /\
     Time.nsec (Message.Timestamp m) = 0%Z) /\
  (Message.Timestamp m = Time.zero -> Time.IsZero (Message.Timestamp m) = true) /\
  (forall l : ptr string,
     Time.IsZero {| Time.wall := Time.wall (Message.Timestamp m);
                    Time.ext := Time.ext (Message.Timestamp m);
                    Time.loc := l |}
     = Time.IsZero (Message.Timestamp m)) /\
  (Time.wall (Message.Timestamp m) = 0%Z ->
     (Time.IsZero (Message.Timestamp m) = true <->
      Time.ext (Message.Timestamp m) = 0%Z)) /\
  (Z.land (Time.wall (Message.Timestamp m)) Time.hasMonotonic <> 0%Z ->
     Time.IsZero (Message.Timestamp m) = false).
Proof.
  intro m.
  assert (Hnz : forall A (s : slice A),
             negb (Nat.eqb (len s) 0) = true <-> elems s <> []).
  { intros A s. rewrite negb_true_iff, Nat.eqb_neq, len_zero_elems. tauto. }
  unfold Message.IsEmpty.
  rewrite HasBaseBody_some, HasSections_some, HasInputs_some. simpl.
  split; [|split; [|split; [|split; [|split; [|split; [|split; [|split; [|split]]]]]]]].
  - rewrite !Ok_inj.
    destruct (negb (Body.eqb _ _));
      destruct (negb (Nat.eqb (len (Message.PlaintextInputs m)) 0));
      destruct (negb (Nat.eqb (len (Message.Sections m)) 0));
      destruct (Time.IsZero (Message.Timestamp m)); simpl;
      rewrite ?Ok_inj; intuition congruence.
  - pose proof (IsEmpty_some_total m) as Ht. unfold Message.IsEmpty in Ht.
    rewrite HasBaseBody_some, HasSections_some, HasInputs_some in Ht. exact Ht.
  - rewrite Ok_inj, negb_true_iff. apply Body_eqb_neq.
  - rewrite Ok_inj. apply Hnz.
  - rewrite Ok_inj. apply Hnz.
  - apply Time_IsZero_iff.
  - intros ->. reflexivity.
  - intro l. apply Time_IsZero_loc.
  - apply Time_IsZero_wall0.
  - apply Time_IsZero_monotonic.
Qed.

(** ** [Buttons]: the two description filters *)

Lemma has_description_true (b : Button.t) :
  has_description b = true <-> Button.Description b <> "".
Proof.
  unfold has_description. rewrite negb_true_iff. apply String.eqb_neq.
Qed.

Lemma has_description_false (b : Button.t) :
  has_description b = false <-> Button.Description b = "".
Proof.
  unfold has_description. rewrite negb_false_iff. apply String.eqb_eq.
Qed.

(** Loop invariant of [GetButtonsWithDescription]: [out] grows by the items
    with a description, in the order visited. *)
Lemma with_loop_elems (l : list Button.t) : forall out : Buttons.t,
  elems (fold_left Buttons.with_step l out) =
  elems out ++ filter has_description l.
Proof.
  induction l as [|item l IH]; intro out; simpl.
  - now rewrite app_nil_r.
  - rewrite IH. unfold Buttons.with_step, has_description.
    destruct (String.eqb (Button.Description item) ""); simpl.
    + reflexivity.
    + now rewrite <- app_assoc.
Qed.

Lemma without_loop_elems (l : list Button.t) : forall out : Buttons.t,
  elems (fold_left Buttons.without_step l out) =
  elems out ++ filter (fun b => negb (has_description b)) l.
Proof.
  induction l as [|item l IH]; intro out; simpl.
  - now rewrite app_nil_r.
  - rewrite IH. unfold Buttons.without_step, has_description.
    destruct (String.eqb (Button.Description item) ""); simpl.
    + now rewrite <- app_assoc.
    + reflexivity.
Qed.

(** The result of either loop is the nil slice exactly when nothing was
    appended. *)
Lemma with_loop_nil (l : list Button.t) : forall out : Buttons.t,
  fold_left Buttons.with_step l out = SliceNil <->
  out = SliceNil /\ filter has_description l = [].
Proof.
  induction l as [|item l IH]; intro out; simpl.
  - tauto.
  - rewrite IH. unfold Buttons.with_step, has_description.
    destruct (String.eqb (Button.Description item) ""); simpl.
    + tauto.
    + unfold append. split; intros [H1 H2]; congruence.
Qed.

Lemma without_loop_nil (l : list Button.t) : forall out : Buttons.t,
  fold_left Buttons.without_step l out = SliceNil <->
  out = SliceNil /\ filter (fun b => negb (has_description b)) l = [].
Proof.
  induction l as [|item l IH]; intro out; simpl.
  - tauto.
  - rewrite IH. unfold Buttons.without_step, has_description.
    destruct (String.eqb (Button.Description item) ""); simpl.
    + unfold append. split; intros [H1 H2]; congruence.
    + tauto.
Qed.

(** Splitting a list by a test and its negation loses and adds nothing. *)
Lemma filter_split_Permutation {A : Type} (p : A -> bool) (l : list A) :
  Permutation (filter p l ++ filter (fun x => negb (p x)) l) l.
Proof.
  induction l as [|x l IH]; simpl.
  - constructor.
  - destruct (p x); simpl.
    + now constructor.
    + apply Permutation_sym.
      eapply Permutation_trans; [|apply Permutation_middle].
      constructor. now apply Permutation_sym.
Qed.

(** C2. For every [Buttons] collection, [GetButtonsWithDescription] returns
    exactly the buttons with a non-empty [Description] and
    [GetButtonsWithoutDescription] exactly those with an empty one, each in
    the original relative order; the first result followed by the second is a
    permutation of the collection, and no button is in both results. *)
Theorem C2_buttons_partition : forall s : Buttons.t,
  exists w wo : Buttons.t,
    Buttons.GetButtonsWithDescription (Some s) = Ok w /\
    Buttons.GetButtonsWithoutDescription (Some s) = Ok wo /\
    elems w = filter has_description (elems s) /\
    elems wo = filter (fun b => negb (has_description b)) (elems s) /\
    (forall b, In b (elems w) <-> In b (elems s) /\ Button.Description b <> "") /\
    (forall b, In b (elems wo) <-> In b (elems s) /\ Button.Description b = "") /\
    Permutation (elems w ++ elems wo) (elems s) /\
    (forall b, ~ (In b (elems w) /\ In b (elems wo))).
Proof.
  intro s.
  exists (fold_left Buttons.with_step (elems s) SliceNil),
         (fold_left Buttons.without_step (elems s) SliceNil).
  rewrite with_loop_elems, without_loop_elems. simpl.
  split; [reflexivity|]. split; [reflexivity|].
  split; [reflexivity|]. split; [reflexivity|].
  split; [|split; [|split]].
  - intro b. rewrite filter_In, has_description_true. tauto.
  - intro b. rewrite filter_In, negb_true_iff, has_description_false. tauto.
  - apply filter_split_Permutation.
  - intros b [Hw Hwo]. apply filter_In in Hw, Hwo.
    destruct Hw as [_ Hw], Hwo as [_ Hwo].
    rewrite Hw in Hwo. discriminate.
Qed.

(** ** [Selects] and [MultiSelect]: [AreOptionsDefined] *)

(** C3, as stated, fails: on a [Selects] whose only select has no option at
    all, [AreOptionsDefined] still returns [true]. *)
Lemma C3_selects_counterexample :
  Selects.AreOptionsDefined (Some selects_one_bare_select) = Ok true /\
  ~ spec_selects_offer_option selects_one_bare_select.
Proof.
  split; [reflexivity|].
  intros (sel & Hin & g & Hg & _). simpl in Hin.
  destruct Hin as [<- | []]. simpl in Hg. exact Hg.
Qed.

(** C3 (amended). For every non-nil [MultiSelect], [AreOptionsDefined]
    returns [true] iff the [Options] list is non-empty; for every non-nil
    [Selects] it returns [true] iff the [Items] list is non-empty, that is,
    iff at least one [Select] is contained, whether or not that select holds
    any option. A [Selects] that does offer an option therefore yields
    [true]; both calls return [false] otherwise. *)
Theorem C3_AreOptionsDefined : forall (m : MultiSelect.t) (s : Selects.t),
  (MultiSelect.AreOptionsDefined (Some m) = Ok true <->
     elems (MultiSelect.Options m) <> []) /\
  (MultiSelect.AreOptionsDefined (Some m) = Ok false <->
     elems (MultiSelect.Options m) = []) /\
  (Selects.AreOptionsDefined (Some s) = Ok true <->
     elems (Selects.Items s) <> []) /\
  (Selects.AreOptionsDefined (Some s) = Ok false <->
     elems (Selects.Items s) = []) /\
  (spec_selects_offer_option s -> Selects.AreOptionsDefined (Some s) = Ok true).
Proof.
  intros m s.
  unfold MultiSelect.AreOptionsDefined, Selects.AreOptionsDefined, len; simpl.
  split; [|split; [|split; [|split]]].
  - destruct (elems (MultiSelect.Options m)); simpl;
      split; intro H; congruence.
  - destruct (elems (MultiSelect.Options m)); simpl;
      split; intro H; congruence.
  - destruct (elems (Selects.Items s)); unfold Nat.ltb; simpl;
      split; intro H; congruence.
  - destruct (elems (Selects.Items s)); unfold Nat.ltb; simpl;
      split; intro H; congruence.
  - intros (sel & Hin & _).
    destruct (elems (Selects.Items s)); [destruct Hin | reflexivity].
Qed.

(** ** [BulletLists]: [AreItemsDefined] *)

Lemma AreItemsDefined_range_true (l : list BulletList.t) :
  BulletLists.AreItemsDefined_range l = true <->
  exists list : BulletList.t, In list l /\ elems (BulletList.Items list) <> [].
Proof.
  induction l as [|x l IH]; simpl.
  - split; [discriminate | intros (? & [] & _)].
  - destruct (Nat.ltb 0 (len (BulletList.Items x))) eqn:E.
    + split; [intros _ | reflexivity].
      exists x. split; [now left | now apply ltb_0_len].
    + rewrite IH. split.
      * intros (y & Hin & Hy). exists y. split; [now right | exact Hy].
      * intros (y & [<- | Hin] & Hy).
        -- apply ltb_0_len in Hy. congruence.
        -- exists y. split; assumption.
Qed.

(** C8. For every [BulletLists] collection, [AreItemsDefined] returns [true]
    iff at least one contained [BulletList] has a non-empty [Items] sequence;
    it returns [false] for the empty collection (nil or not) and for a
    collection in which every list has zero items. *)
Theorem C8_AreItemsDefined : forall l : BulletLists.t,
  (BulletLists.AreItemsDefined l = true <->
     exists list : BulletList.t,
       In list (elems l) /\ elems (BulletList.Items list) <> []) /\
  (elems l = [] -> BulletLists.AreItemsDefined l = false) /\
  ((forall list : BulletList.t,
       In list (elems l) -> elems (BulletList.Items list) = []) ->
   BulletLists.AreItemsDefined l = false).
Proof.
  intro l. unfold BulletLists.AreItemsDefined.
  split; [apply AreItemsDefined_range_true|]. split.
  - intros ->. reflexivity.
  - intro Hall.
    destruct (BulletLists.AreItemsDefined_range (elems l)) eqn:E; [|reflexivity].
    apply AreItemsDefined_range_true in E. destruct E as (x & Hin & Hx).
    elim Hx. now apply Hall.
Qed.

(** The two degenerate collections of C8, evaluated. *)
Example AreItemsDefined_nil : BulletLists.AreItemsDefined SliceNil = false.
Proof. reflexivity. Qed.

Example AreItemsDefined_all_empty :
  BulletLists.AreItemsDefined
    (SliceOf [ {| BulletList.Title := "a"; BulletList.Items := SliceNil |};
               {| BulletList.Title := "b"; BulletList.Items := SliceOf [] |} ])
  = false.
Proof. reflexivity. Qed.

(** ** Nil receivers *)

Lemma returns_Ok {A : Type} (a : A) : returns (Ok a).
Proof. now exists a. Qed.

Lemma not_returns_Panic {A : Type} : ~ returns (@Panic A).
Proof. intros [a H]. discriminate. Qed.

#[local] Hint Resolve returns_Ok : core.


(** The other unguarded pointer-receiver predicates behave the same way. *)
Lemma unguarded_predicates_nil :
  Message.HasBaseBody None = Panic /\
  Message.HasSections None = Panic /\
  Message.HasInputs None = Panic /\
  TextField.IsEmpty None = Panic.
Proof. repeat split. Qed.


(** The getters also return the nil collection on a non-nil receiver in
    which no button matches. *)
Lemma GetButtonsWithDescription_nil_iff (s : Buttons.t) :
  Buttons.GetButtonsWithDescription (Some s) = Ok SliceNil <->
  filter has_description (elems s) = [].
Proof.
  go_run. rewrite Ok_inj, with_loop_nil. tauto.
Qed.

Lemma GetButtonsWithoutDescription_nil_iff (s : Buttons.t) :
  Buttons.GetButtonsWithoutDescription (Some s) = Ok SliceNil <->
  filter (fun b => negb (has_description b)) (elems s) = [].
Proof.
  go_run. rewrite Ok_inj, without_loop_nil. tauto.
Qed.

(** ** [ButtonBuilder] *)

Lemma string_length_append (a b : string) :
  String.length (a ++ b)%string = String.length a + String.length b.
Proof.
  induction a as [|c a IH]; simpl; [reflexivity | now rewrite IH].
Qed.

Lemma Sprintf_s_s_length (a b : string) :
  String.length (Sprintf_s_s a b) = String.length a + 1 + String.length b.
Proof.
  unfold Sprintf_s_s. rewrite !string_length_append. simpl. lia.
Qed.

(** Prefixing changes a string, and prefixing twice differs from prefixing
    once. *)
Lemma Sprintf_s_s_neq (a b : string) : Sprintf_s_s a b <> b.
Proof.
  intro H. apply (f_equal String.length) in H.
  rewrite Sprintf_s_s_length in H. lia.
Qed.

Lemma Sprintf_s_s_once (a b : string) :
  Sprintf_s_s a b <> Sprintf_s_s a (Sprintf_s_s a b).
Proof.
  intro H. apply (f_equal String.length) in H.
  rewrite !Sprintf_s_s_length in H. lia.
Qed.

Section Builder.

Variable MessageBotNamePlaceholder : string.

(** C4. For each command-producing builder operation and all string
    inputs, the [Command] of the returned button is the placeholder, one
    space and the given command: the prefix is there once, so the field is
    neither the bare command nor the command prefixed twice. *)
Theorem C4_command_prefixed_once :
  forall (name cmd desc : string) (style : list ButtonStyle),
    Forall
      (fun b : Button.t =>
         Button.Command b = (MessageBotNamePlaceholder ++ " " ++ cmd)%string /\
         Button.Command b <> cmd /\
         Button.Command b <>
           (MessageBotNamePlaceholder ++ " " ++
              (MessageBotNamePlaceholder ++ " " ++ cmd))%string)
      [ ButtonBuilder.ForCommandWithDescCmd MessageBotNamePlaceholder name cmd style;
        ButtonBuilder.ForCommandWithBoldDesc MessageBotNamePlaceholder name desc cmd style;
        ButtonBuilder.ForCommandWithoutDesc MessageBotNamePlaceholder name cmd style;
        ButtonBuilder.ForCommand MessageBotNamePlaceholder name cmd desc style ].
Proof.
  intros name cmd desc style.
  assert (Honce : forall b : Button.t,
             Button.Command b = Sprintf_s_s MessageBotNamePlaceholder cmd ->
             Button.Command b = (MessageBotNamePlaceholder ++ " " ++ cmd)%string /\
             Button.Command b <> cmd /\
             Button.Command b <>
               (MessageBotNamePlaceholder ++ " " ++
                  (MessageBotNamePlaceholder ++ " " ++ cmd))%string).
  { intros b ->. split; [reflexivity|]. split.
    - apply Sprintf_s_s_neq.
    - apply Sprintf_s_s_once. }
  repeat constructor; apply Honce; reflexivity.
Qed.

(** C5. With no style argument, [ForCommandWithDescCmd] yields a button
    with the given name, whose [Command] and [Description] are both the
    placeholder, a space and the given command, whose [DescriptionStyle] is
    ["code"] and whose [Style] is the default (empty) one; so for the name
    ["Run"] and the command ["run-now"]. *)
Theorem C5_ForCommandWithDescCmd_default :
  (forall name cmd : string,
     ButtonBuilder.ForCommandWithDescCmd MessageBotNamePlaceholder name cmd [] =
     {| Button.Name := name;
        Button.Command := (MessageBotNamePlaceholder ++ " " ++ cmd)%string;
        Button.Description := (MessageBotNamePlaceholder ++ " " ++ cmd)%string;
        Button.DescriptionStyle := "code";
        Button.URL := "";
        Button.Style := "" |}) /\
  ButtonBuilder.ForCommandWithDescCmd MessageBotNamePlaceholder "Run" "run-now" [] =
  {| Button.Name := "Run";
     Button.Command := (MessageBotNamePlaceholder ++ " run-now")%string;
     Button.Description := (MessageBotNamePlaceholder ++ " run-now")%string;
     Button.DescriptionStyle := "code";
     Button.URL := "";
     Button.Style := "" |}.
Proof.
  split; [intros name cmd|]; reflexivity.
Qed.

(** C9. For all inputs, [DescriptionURL] returns a button whose [Command]
    and [DescriptionStyle] are empty: the command text is only in the
    generated [Description] (placeholder, space, command), and unlike the
    command builders no ["code"] description style is set. *)
Theorem C9_DescriptionURL :
  forall (name cmd url : string) (style : list ButtonStyle),
    Button.Command
      (ButtonBuilder.DescriptionURL MessageBotNamePlaceholder name cmd url style) = "" /\
    Button.DescriptionStyle
      (ButtonBuilder.DescriptionURL MessageBotNamePlaceholder name cmd url style) = "" /\
    Button.DescriptionStyle
      (ButtonBuilder.DescriptionURL MessageBotNamePlaceholder name cmd url style)
      <> ButtonDescriptionStyleCode /\
    Button.Description
      (ButtonBuilder.DescriptionURL MessageBotNamePlaceholder name cmd url style)
      = (MessageBotNamePlaceholder ++ " " ++ cmd)%string /\
    Button.Name
      (ButtonBuilder.DescriptionURL MessageBotNamePlaceholder name cmd url style) = name /\
    Button.URL
      (ButtonBuilder.DescriptionURL MessageBotNamePlaceholder name cmd url style) = url.
Proof.
  intros name cmd url style. repeat split. discriminate.
Qed.

(** C10. For all names, commands and style arguments,
    [ForCommandWithDescCmd name cmd style...] is the same button as
    [ForCommand name cmd cmd style...]. *)
Theorem C10_ForCommandWithDescCmd_is_ForCommand :
  forall (name cmd : string) (style : list ButtonStyle),
    ButtonBuilder.ForCommandWithDescCmd MessageBotNamePlaceholder name cmd style =
    ButtonBuilder.ForCommand MessageBotNamePlaceholder name cmd cmd style.
Proof.
  intros name cmd style. reflexivity.
Qed.

End Builder.

(** C6. With no style argument, [ForURLWithBoldDesc] yields a button whose
    [Name], [URL] and [Description] are the given arguments unchanged, whose
    [DescriptionStyle] is ["bold"], whose [Style] is the default (empty) one
    and whose [Command] is empty; so for the name ["Docs"], the description
    ["See docs"] and the url ["https://x"]. *)
Theorem C6_ForURLWithBoldDesc_default :
  (forall name desc url : string,
     ButtonBuilder.ForURLWithBoldDesc name desc url [] =
     {| Button.Name := name;
        Button.URL := url;
        Button.Description := desc;
        Button.DescriptionStyle := "bold";
        Button.Style := "";
        Button.Command := "" |}) /\
  ButtonBuilder.ForURLWithBoldDesc "Docs" "See docs" "https://x" [] =
  {| Button.Name := "Docs";
     Button.URL := "https://x";
     Button.Description := "See docs";
     Button.DescriptionStyle := "bold";
     Button.Style := "";
     Button.Command := "" |}.
Proof.
  split; [intros name desc url|]; reflexivity.
Qed.

(** The last example of the specification: a message with only a non-zero
    [Timestamp] is not empty. *)
Example IsEmpty_only_timestamp :
  Message.IsEmpty
    (Some {| Message.Type_ := DefaultMessage;
             Message.BaseBody := Body.zero;
             Message.Timestamp := {| Time.wall := 0; Time.ext := 63800000000;
                                     Time.loc := None |};
             Message.Sections := SliceNil;
             Message.PlaintextInputs := SliceNil;
             Message.OnlyVisibleForYou := false;
             Message.ReplaceOriginal := false;
             Message.UserHandle := "";
             Message.ParentActivityID := "" |})
  = Ok false.
Proof. reflexivity. Qed.

(** * Further properties of the code *)

(** ** [TextField] and [ContextItems] *)

(** X1. On a non-nil receiver, [TextField.IsEmpty] returns [true] exactly
    when the field is the zero [TextField] (key and value both empty), and
    [false] otherwise. *)
Theorem TextField_IsEmpty_iff : forall x : TextField.t,
  (TextField.IsEmpty (Some x) = Ok true <->
     x = {| TextField.Key := ""; TextField.Value := "" |}) /\
  (TextField.IsEmpty (Some x) = Ok false <->
     TextField.Key x <> "" \/ TextField.Value x <> "").
Proof.
  intros [k v]. go_run. rewrite !Ok_inj.
  destruct (String.eqb_spec v ""), (String.eqb_spec k ""); subst; simpl;
    split; split; intro H; try congruence; try (left; congruence);
    try (right; congruence); try (destruct H; congruence).
Qed.

(** X2. [ContextItems.IsDefined] is [true] iff the collection has an
    element: it is [false] on the nil and on the empty collection, and
    [true] after any [append]. *)
Theorem ContextItems_IsDefined_iff : forall (c : ContextItems.t) (x : ContextItem.t),
  (ContextItems.IsDefined c = true <-> elems c <> []) /\
  (ContextItems.IsDefined c = false <-> elems c = []) /\
  ContextItems.IsDefined (append c x) = true.
Proof.
  intros c x. unfold ContextItems.IsDefined.
  split; [apply ltb_0_len|]. split.
  - pose proof (ltb_0_len c) as H.
    destruct (Nat.ltb 0 (len c)); destruct (elems c) eqn:E.
    + exfalso. now apply (proj1 H).
    + split; congruence.
    + tauto.
    + exfalso. assert (E' : false = true) by (apply H; congruence). discriminate.
  - apply ltb_0_len. unfold append. simpl.
    destruct (elems c); discriminate.
Qed.

(** ** Which receivers a predicate accepts *)

(** X3. The predicates of [Message] and [TextField.IsEmpty] return exactly
    on the non-nil receivers: a nil receiver is dereferenced and panics. *)
Theorem unguarded_predicates_return_iff :
  (forall p : ptr Message.t, returns (Message.IsEmpty p) <-> p <> None) /\
  (forall p : ptr Message.t, returns (Message.HasBaseBody p) <-> p <> None) /\
  (forall p : ptr Message.t, returns (Message.HasSections p) <-> p <> None) /\
  (forall p : ptr Message.t, returns (Message.HasInputs p) <-> p <> None) /\
  (forall p : ptr TextField.t, returns (TextField.IsEmpty p) <-> p <> None).
Proof.
  repeat match goal with |- _ /\ _ => split end;
    intros [x|]; (split; [intro H | intro H]);
    try discriminate; try (now elim H);
    try (exfalso; revert H; apply not_returns_Panic);
    try (go_run; apply returns_Ok).
  destruct (IsEmpty_some_total x) as [-> | ->]; apply returns_Ok.
Qed.

(** ** [Message.IsEmpty]: what it does not look at *)

(** X4. [IsEmpty] reads only [BaseBody], [Timestamp], [Sections] and
    [PlaintextInputs]: changing the type tag, the two flags, the user handle
    or the parent activity id never changes its result. So a message that
    carries only those (a bare [SkipMessage], say) is empty, with nil or with
    empty non-nil collections alike. *)
Theorem IsEmpty_ignores_other_fields :
  forall (m : Message.t) (ty : MessageType) (vis rep : bool) (uh pid : string),
    Message.IsEmpty
      (Some {| Message.Type_ := ty;
               Message.BaseBody := Message.BaseBody m;
               Message.Timestamp := Message.Timestamp m;
               Message.Sections := Message.Sections m;
               Message.PlaintextInputs := Message.PlaintextInputs m;
               Message.OnlyVisibleForYou := vis;
               Message.ReplaceOriginal := rep;
               Message.UserHandle := uh;
               Message.ParentActivityID := pid |})
    = Message.IsEmpty (Some m) /\
    (forall nil_sections nil_inputs : bool,
       Message.IsEmpty
         (Some {| Message.Type_ := ty;
                  Message.BaseBody := Body.zero;
                  Message.Timestamp := Time.zero;
                  Message.Sections :=
                    if nil_sections then SliceNil else SliceOf [];
                  Message.PlaintextInputs :=
                    if nil_inputs then SliceNil else SliceOf [];
                  Message.OnlyVisibleForYou := vis;
                  Message.ReplaceOriginal := rep;
                  Message.UserHandle := uh;
                  Message.ParentActivityID := pid |})
       = Ok true).
Proof.
  intros m ty vis rep uh pid. split.
  - destruct m; reflexivity.
  - intros [|] [|]; reflexivity.
Qed.

(** ** [BulletLists.AreItemsDefined] on built-up collections *)

Lemma AreItemsDefined_range_app (a b : list BulletList.t) :
  BulletLists.AreItemsDefined_range (a ++ b) =
  BulletLists.AreItemsDefined_range a || BulletLists.AreItemsDefined_range b.
Proof.
  induction a as [|x a IH]; simpl; [reflexivity|].
  destruct (Nat.ltb 0 (len (BulletList.Items x))); [reflexivity | exact IH].
Qed.

(** X5. [AreItemsDefined] distributes over concatenation, and appending a
    list to a collection makes it defined exactly when it already was or the
    new list has an item; the title of a list plays no role. *)
Theorem AreItemsDefined_app :
  forall (a b : list BulletList.t) (l : BulletLists.t) (title : string)
         (items : slice string),
    BulletLists.AreItemsDefined (SliceOf (a ++ b)) =
      BulletLists.AreItemsDefined (SliceOf a) ||
      BulletLists.AreItemsDefined (SliceOf b) /\
    BulletLists.AreItemsDefined
      (append l {| BulletList.Title := title; BulletList.Items := items |}) =
      BulletLists.AreItemsDefined l || Nat.ltb 0 (len items).
Proof.
  intros a b l title items. unfold BulletLists.AreItemsDefined, append. simpl.
  rewrite !AreItemsDefined_range_app. simpl.
  split; [reflexivity|].
  destruct (Nat.ltb 0 (len items)); reflexivity.
Qed.

(** ** [Buttons]: the filters as values *)

(** What either loop leaves in [out]: [out] itself when nothing matched,
    otherwise a fresh slice. *)
Lemma with_loop_value (l : list Button.t) : forall out : Buttons.t,
  fold_left Buttons.with_step l out =
  match filter has_description l with
  | [] => out
  | f => SliceOf (elems out ++ f)
  end.
Proof.
  induction l as [|item l IH]; intro out; simpl; [reflexivity|].
  rewrite IH. unfold Buttons.with_step, has_description.
  destruct (String.eqb (Button.Description item) ""); simpl; [reflexivity|].
  destruct (filter _ l); simpl; [reflexivity|].
  now rewrite <- app_assoc.
Qed.

Lemma without_loop_value (l : list Button.t) : forall out : Buttons.t,
  fold_left Buttons.without_step l out =
  match filter (fun b => negb (has_description b)) l with
  | [] => out
  | f => SliceOf (elems out ++ f)
  end.
Proof.
  induction l as [|item l IH]; intro out; simpl; [reflexivity|].
  rewrite IH. unfold Buttons.without_step, has_description.
  destruct (String.eqb (Button.Description item) ""); simpl; [|reflexivity].
  destruct (filter _ l); simpl; [reflexivity|].
  now rewrite <- app_assoc.
Qed.

Lemma filter_nil_iff {A : Type} (p : A -> bool) (l : list A) :
  filter p l = [] <-> forall x, In x l -> p x = false.
Proof.
  induction l as [|x l IH]; simpl.
  - split; [intros _ y [] | reflexivity].
  - destruct (p x) eqn:E.
    + split; [discriminate|]. intro H. rewrite (H x) in E; [discriminate | now left].
    + rewrite IH. split.
      * intros H y [<- | Hy]; [exact E | now apply H].
      * intros H y Hy. apply H. now right.
Qed.

Lemma filter_filter_same {A : Type} (p : A -> bool) (l : list A) :
  filter p (filter p l) = filter p l.
Proof.
  induction l as [|x l IH]; simpl; [reflexivity|].
  destruct (p x) eqn:E; simpl; [rewrite E, IH|]; auto.
Qed.

Lemma filter_filter_neg {A : Type} (p : A -> bool) (l : list A) :
  filter (fun x => negb (p x)) (filter p l) = [] /\
  filter p (filter (fun x => negb (p x)) l) = [].
Proof.
  induction l as [|x l [IH1 IH2]]; simpl; [split; reflexivity|].
  destruct (p x) eqn:E; simpl; rewrite ?E; simpl; split; assumption.
Qed.

Lemma filter_split_length {A : Type} (p : A -> bool) (l : list A) :
  List.length (filter p l) + List.length (filter (fun x => negb (p x)) l)
  = List.length l.
Proof.
  induction l as [|x l IH]; simpl; [reflexivity|].
  destruct (p x); simpl; lia.
Qed.

(** X6. The two getters are projections: applied to its own result a getter
    returns that result again, applied to the other getter's result it
    returns the nil collection, and the two results together have as many
    buttons as the input. *)
Theorem Buttons_getters_compose : forall s : Buttons.t,
  exists w wo : Buttons.t,
    Buttons.GetButtonsWithDescription (Some s) = Ok w /\
    Buttons.GetButtonsWithoutDescription (Some s) = Ok wo /\
    Buttons.GetButtonsWithDescription (Some w) = Ok w /\
    Buttons.GetButtonsWithoutDescription (Some wo) = Ok wo /\
    Buttons.GetButtonsWithoutDescription (Some w) = Ok SliceNil /\
    Buttons.GetButtonsWithDescription (Some wo) = Ok SliceNil /\
    len w + len wo = len s.
Proof.
  intro s.
  exists (fold_left Buttons.with_step (elems s) SliceNil),
         (fold_left Buttons.without_step (elems s) SliceNil).
  go_run. rewrite !with_loop_value, !without_loop_value. simpl.
  pose proof (filter_filter_same has_description (elems s)) as Hw.
  pose proof (filter_filter_same (fun b => negb (has_description b)) (elems s)) as Hwo.
  pose proof (filter_filter_neg has_description (elems s)) as [Hn1 Hn2].
  pose proof (filter_split_length has_description (elems s)) as Hlen.
  unfold len.
  destruct (filter has_description (elems s)) as [|b1 l1];
    destruct (filter (fun b => negb (has_description b)) (elems s)) as [|b2 l2];
    simpl elems; rewrite ?with_loop_value, ?without_loop_value;
    rewrite ?Hw, ?Hwo, ?Hn1, ?Hn2; simpl;
    repeat split; assumption.
Qed.

(** X7. A getter returns the nil collection (not an empty non-nil one)
    exactly when no button of a non-nil receiver qualifies; in particular on
    a receiver without buttons. *)
Theorem Buttons_getters_nil_iff : forall s : Buttons.t,
  (Buttons.GetButtonsWithDescription (Some s) = Ok SliceNil <->
     forall b, In b (elems s) -> Button.Description b = "") /\
  (Buttons.GetButtonsWithoutDescription (Some s) = Ok SliceNil <->
     forall b, In b (elems s) -> Button.Description b <> "") /\
  (forall w, Buttons.GetButtonsWithDescription (Some s) = Ok w ->
     w = SliceNil \/ elems w <> []) /\
  (forall wo, Buttons.GetButtonsWithoutDescription (Some s) = Ok wo ->
     wo = SliceNil \/ elems wo <> []).
Proof.
  intro s.
  rewrite GetButtonsWithDescription_nil_iff, GetButtonsWithoutDescription_nil_iff.
  rewrite !filter_nil_iff.
  split; [|split; [|split]].
  - split; intros H b Hb; apply has_description_false; now apply H.
  - split; intros H b Hb; specialize (H b Hb).
    + apply has_description_true. now apply negb_false_iff.
    + apply negb_false_iff. now apply has_description_true.
  - intros w. go_run. rewrite Ok_inj, with_loop_value. intros <-.
    destruct (filter _ (elems s)); [now left | right; discriminate].
  - intros wo. go_run. rewrite Ok_inj, without_loop_value. intros <-.
    destruct (filter _ (elems s)); [now left | right; discriminate].
Qed.

(** ** [ButtonBuilder]: styles, shapes and how built buttons are filtered *)

Lemma Sprintf_s_s_nonempty (a b : string) : Sprintf_s_s a b <> "".
Proof.
  intro H. apply (f_equal String.length) in H.
  rewrite Sprintf_s_s_length in H. simpl in H. lia.
Qed.

Lemma string_append_inj_l (a x y : string) :
  (a ++ x)%string = (a ++ y)%string -> x = y.
Proof.
  induction a as [|c a IH]; simpl; intro H; [exact H|].
  injection H as H. now apply IH.
Qed.

Lemma Sprintf_s_s_inj (a x y : string) :
  Sprintf_s_s a x = Sprintf_s_s a y <-> x = y.
Proof.
  split; [|now intros ->]. unfold Sprintf_s_s. intro H.
  apply string_append_inj_l in H. simpl in H. now injection H.
Qed.

Lemma substring_all (b : string) : substring 0 (String.length b) b = b.
Proof.
  induction b as [|c b IH]; simpl; [reflexivity | now rewrite IH].
Qed.

Lemma substring_append_r (a b : string) :
  substring (String.length a) (String.length b) (a ++ b)%string = b.
Proof.
  induction a as [|c a IH]; simpl; [apply substring_all | exact IH].
Qed.

Lemma Sprintf_s_s_substring (a b : string) :
  substring (String.length a + 1) (String.length b) (Sprintf_s_s a b) = b.
Proof.
  unfold Sprintf_s_s.
  replace (String.length a + 1) with (String.length (a ++ " ")%string)
    by (rewrite string_length_append; reflexivity).
  replace (a ++ " " ++ b)%string with ((a ++ " ") ++ b)%string.
  - apply substring_append_r.
  - clear. induction a as [|c a IH]; simpl; [reflexivity | now rewrite IH].
Qed.

Lemma substring_append_l (a b : string) :
  substring 0 (String.length a) (a ++ b)%string = a.
Proof.
  induction a as [|c a IH]; simpl.
  - destruct b; reflexivity.
  - now rewrite IH.
Qed.

Lemma get_append_r (a b : string) (c : ascii) :
  get (String.length a) (a ++ String c b)%string = Some c.
Proof.
  induction a as [|c0 a IH]; simpl; [reflexivity | exact IH].
Qed.

(** Reading a prefixed string back: the placeholder, one space, and the
    whole rest is the text that was prefixed. *)
Lemma Sprintf_s_s_read_back (a b : string) :
  substring 0 (String.length a) (Sprintf_s_s a b) = a /\
  get (String.length a) (Sprintf_s_s a b) = Some " "%char /\
  substring (String.length a + 1)
    (String.length (Sprintf_s_s a b) - (String.length a + 1))
    (Sprintf_s_s a b) = b.
Proof.
  split; [apply substring_append_l|]. split; [apply get_append_r|].
  rewrite Sprintf_s_s_length.
  replace (String.length a + 1 + String.length b - (String.length a + 1))
    with (String.length b) by lia.
  apply Sprintf_s_s_substring.
Qed.

Section BuilderExtras.

Variable MessageBotNamePlaceholder : string.

(** X8. In every builder operation only the first style argument counts:
    the button built with [s :: rest] is the one built with [s] alone and
    has style [s]; with no style argument the style is the default one. *)
Theorem builder_first_style_wins :
  forall (name cmd desc url : string) (s : ButtonStyle) (rest : list ButtonStyle),
    Forall
      (fun f : list ButtonStyle -> Button.t =>
         f (s :: rest) = f [s] /\
         Button.Style (f (s :: rest)) = s /\
         Button.Style (f []) = ButtonStyleDefault)
      [ ButtonBuilder.ForCommandWithDescCmd MessageBotNamePlaceholder name cmd;
        ButtonBuilder.ForCommandWithBoldDesc MessageBotNamePlaceholder name desc cmd;
        ButtonBuilder.DescriptionURL MessageBotNamePlaceholder name cmd url;
        ButtonBuilder.ForCommandWithoutDesc MessageBotNamePlaceholder name cmd;
        ButtonBuilder.ForCommand MessageBotNamePlaceholder name cmd desc;
        ButtonBuilder.ForURL name url;
        ButtonBuilder.ForURLWithBoldDesc name desc url;
        ButtonBuilder.ForURLWithTextDesc name desc url ].
Proof.
  intros name cmd desc url s rest.
  repeat constructor.
Qed.

(** X9. [ForURLWithTextDesc] is [ForURL] with the description set and the
    description style ["text"]: name, url and style are those of [ForURL],
    the description is the given one unchanged, the command stays empty; it
    differs from [ForURLWithBoldDesc] in the description style only. *)
Theorem ForURLWithTextDesc_shape :
  forall (name desc url : string) (style : list ButtonStyle),
    ButtonBuilder.ForURLWithTextDesc name desc url style =
    {| Button.Name := name;
       Button.URL := url;
       Button.Description := desc;
       Button.DescriptionStyle := "text";
       Button.Style := match style with [] => ButtonStyleDefault | s :: _ => s end;
       Button.Command := "" |} /\
    ButtonBuilder.ForURLWithBoldDesc name desc url style =
    ButtonBuilder.set_description
      (ButtonBuilder.ForURLWithTextDesc name desc url style) desc
      ButtonDescriptionStyleBold /\
    ButtonBuilder.ForURLWithTextDesc name desc url style <>
    ButtonBuilder.ForURLWithBoldDesc name desc url style /\
    ButtonBuilder.ForURL name url style =
    ButtonBuilder.set_description
      (ButtonBuilder.ForURLWithTextDesc name desc url style) "" "".
Proof.
  intros name desc url [|s rest]; repeat split; discriminate.
Qed.

(** X10. [ForCommand] prefixes both the command and the description with the
    placeholder and sets the ["code"] description style, while
    [ForCommandWithBoldDesc] prefixes the command only, keeps the description
    as given and sets the ["bold"] style; neither sets a URL, and the two
    never build the same button. *)
Theorem command_builders_shape :
  forall (name cmd desc : string) (style : list ButtonStyle),
    ButtonBuilder.ForCommand MessageBotNamePlaceholder name cmd desc style =
    {| Button.Name := name;
       Button.Command := (MessageBotNamePlaceholder ++ " " ++ cmd)%string;
       Button.Description := (MessageBotNamePlaceholder ++ " " ++ desc)%string;
       Button.DescriptionStyle := "code";
       Button.URL := "";
       Button.Style := match style with [] => ButtonStyleDefault | s :: _ => s end |} /\
    ButtonBuilder.ForCommandWithBoldDesc MessageBotNamePlaceholder name desc cmd style =
    {| Button.Name := name;
       Button.Command := (MessageBotNamePlaceholder ++ " " ++ cmd)%string;
       Button.Description := desc;
       Button.DescriptionStyle := "bold";
       Button.URL := "";
       Button.Style := match style with [] => ButtonStyleDefault | s :: _ => s end |} /\
    (forall (name' cmd' desc' : string) (style' : list ButtonStyle),
       ButtonBuilder.ForCommand MessageBotNamePlaceholder name cmd desc style <>
       ButtonBuilder.ForCommandWithBoldDesc MessageBotNamePlaceholder
         name' desc' cmd' style').
Proof.
  intros name cmd desc style.
  split; [destruct style; reflexivity|].
  split; [destruct style; reflexivity|].
  intros name' cmd' desc' style' H.
  apply (f_equal Button.DescriptionStyle) in H. discriminate.
Qed.

(** X11. Every command builder returns a button with a non-empty command
    and no URL (even for an empty command text and an empty placeholder, as
    the separating space is always there); every URL builder returns a
    button with the given URL and no command. A built button never has both. *)
Theorem builder_command_xor_url :
  forall (name cmd desc url : string) (style : list ButtonStyle),
    Forall
      (fun b : Button.t =>
         Button.Name b = name /\ Button.Command b <> "" /\ Button.URL b = "")
      [ ButtonBuilder.ForCommandWithDescCmd MessageBotNamePlaceholder name cmd style;
        ButtonBuilder.ForCommandWithBoldDesc MessageBotNamePlaceholder name desc cmd style;
        ButtonBuilder.ForCommandWithoutDesc MessageBotNamePlaceholder name cmd style;
        ButtonBuilder.ForCommand MessageBotNamePlaceholder name cmd desc style ] /\
    Forall
      (fun b : Button.t =>
         Button.Name b = name /\ Button.Command b = "" /\ Button.URL b = url)
      [ ButtonBuilder.ForURL name url style;
        ButtonBuilder.ForURLWithBoldDesc name desc url style;
        ButtonBuilder.ForURLWithTextDesc name desc url style;
        ButtonBuilder.DescriptionURL MessageBotNamePlaceholder name cmd url style ].
Proof.
  intros name cmd desc url style.
  split; repeat constructor; simpl; apply Sprintf_s_s_nonempty.
Qed.

(** X12. How built buttons pass the two getters. A button from
    [ForCommandWithDescCmd], [ForCommand] or [DescriptionURL] always has a
    description and is kept by [GetButtonsWithDescription]; one from
    [ForCommandWithoutDesc] or [ForURL] never has and is kept by
    [GetButtonsWithoutDescription]; one from [ForCommandWithBoldDesc],
    [ForURLWithBoldDesc] or [ForURLWithTextDesc] has one iff the given
    description is non-empty. *)
Theorem built_buttons_filtered :
  forall (name cmd desc url : string) (style : list ButtonStyle),
    Forall
      (fun b : Button.t =>
         Buttons.GetButtonsWithDescription (Some (SliceOf [b])) = Ok (SliceOf [b]) /\
         Buttons.GetButtonsWithoutDescription (Some (SliceOf [b])) = Ok SliceNil)
      [ ButtonBuilder.ForCommandWithDescCmd MessageBotNamePlaceholder name cmd style;
        ButtonBuilder.ForCommand MessageBotNamePlaceholder name cmd desc style;
        ButtonBuilder.DescriptionURL MessageBotNamePlaceholder name cmd url style ] /\
    Forall
      (fun b : Button.t =>
         Buttons.GetButtonsWithDescription (Some (SliceOf [b])) = Ok SliceNil /\
         Buttons.GetButtonsWithoutDescription (Some (SliceOf [b])) = Ok (SliceOf [b]))
      [ ButtonBuilder.ForCommandWithoutDesc MessageBotNamePlaceholder name cmd style;
        ButtonBuilder.ForURL name url style ] /\
    Forall
      (fun b : Button.t =>
         Buttons.GetButtonsWithDescription (Some (SliceOf [b])) =
           Ok (if String.eqb desc "" then SliceNil else SliceOf [b]) /\
         Buttons.GetButtonsWithoutDescription (Some (SliceOf [b])) =
           Ok (if String.eqb desc "" then SliceOf [b] else SliceNil))
      [ ButtonBuilder.ForCommandWithBoldDesc MessageBotNamePlaceholder name desc cmd style;
        ButtonBuilder.ForURLWithBoldDesc name desc url style;
        ButtonBuilder.ForURLWithTextDesc name desc url style ].
Proof.
  intros name cmd desc url style.
  assert (Hne : forall x, String.eqb (Sprintf_s_s MessageBotNamePlaceholder x) "" = false).
  { intro x. apply String.eqb_neq. apply Sprintf_s_s_nonempty. }
  split; [|split]; repeat constructor; go_run;
    unfold Buttons.with_step, Buttons.without_step; simpl;
    rewrite ?Hne; simpl; try reflexivity;
    destruct (String.eqb desc ""); reflexivity.
Qed.

(** X13. The command text can be read back from a button built by any of
    the four command builders: [Command] is as long as the placeholder, one
    space and the command text; it starts with the placeholder, then has a
    space, and the whole rest of it is the command text. So two buttons built
    by any two of the four builders have the same [Command] iff they were
    given the same command text. *)
Theorem builder_command_recoverable :
  forall (name name' cmd cmd' desc desc' : string) (style style' : list ButtonStyle),
    Forall
      (fun b : Button.t =>
         String.length (Button.Command b) =
           String.length MessageBotNamePlaceholder + 1 + String.length cmd /\
         substring 0 (String.length MessageBotNamePlaceholder) (Button.Command b)
           = MessageBotNamePlaceholder /\
         get (String.length MessageBotNamePlaceholder) (Button.Command b)
           = Some " "%char /\
         substring (String.length MessageBotNamePlaceholder + 1)
           (String.length (Button.Command b) -
              (String.length MessageBotNamePlaceholder + 1))
           (Button.Command b) = cmd /\
         Forall
           (fun b' : Button.t =>
              Button.Command b = Button.Command b' <-> cmd = cmd')
           [ ButtonBuilder.ForCommandWithDescCmd MessageBotNamePlaceholder name' cmd' style';
             ButtonBuilder.ForCommandWithBoldDesc MessageBotNamePlaceholder name' desc' cmd' style';
             ButtonBuilder.ForCommandWithoutDesc MessageBotNamePlaceholder name' cmd' style';
             ButtonBuilder.ForCommand MessageBotNamePlaceholder name' cmd' desc' style' ])
      [ ButtonBuilder.ForCommandWithDescCmd MessageBotNamePlaceholder name cmd style;
        ButtonBuilder.ForCommandWithBoldDesc MessageBotNamePlaceholder name desc cmd style;
        ButtonBuilder.ForCommandWithoutDesc MessageBotNamePlaceholder name cmd style;
        ButtonBuilder.ForCommand MessageBotNamePlaceholder name cmd desc style ].
Proof.
  intros name name' cmd cmd' desc desc' style style'.
  pose proof (Sprintf_s_s_read_back MessageBotNamePlaceholder cmd) as (Hp & Hs & Hr).
  pose proof (Sprintf_s_s_length MessageBotNamePlaceholder cmd) as Hl.
  pose proof (Sprintf_s_s_inj MessageBotNamePlaceholder cmd cmd') as Hi.
  repeat (apply Forall_cons || apply Forall_nil);
    (split; [exact Hl|]); (split; [exact Hp|]); (split; [exact Hs|]);
    (split; [exact Hr|]);
    repeat (apply Forall_cons || apply Forall_nil); exact Hi.
Qed.

End BuilderExtras.

(** ** [AreOptionsDefined]: what it does not look at *)

(** X14. [AreOptionsDefined] validates nothing about the pre-selected
    options. On a [MultiSelect] the result depends on [Options] only: with
    no option it is [false] whatever [InitialOptions] holds. On a [Selects]
    it depends on the number of items only: rewriting every contained
    [Select] (its groups, its pre-selected option) leaves it unchanged. *)
Theorem AreOptionsDefined_ignores_preselection :
  (forall (m : MultiSelect.t) (name cmd : string) (d : Body.t)
          (initial : slice OptionItem.t),
     MultiSelect.AreOptionsDefined
       (Some {| MultiSelect.Name := name;
                MultiSelect.Description := d;
                MultiSelect.Command := cmd;
                MultiSelect.Options := MultiSelect.Options m;
                MultiSelect.InitialOptions := initial |})
     = MultiSelect.AreOptionsDefined (Some m)) /\
  (forall (name cmd : string) (d : Body.t) (initial : slice OptionItem.t)
          (nil_options : bool),
     MultiSelect.AreOptionsDefined
       (Some {| MultiSelect.Name := name;
                MultiSelect.Description := d;
                MultiSelect.Command := cmd;
                MultiSelect.Options := if nil_options then SliceNil else SliceOf [];
                MultiSelect.InitialOptions := initial |})
     = Ok false) /\
  (forall (id id' : string) (items : list Select.t) (f : Select.t -> Select.t),
     Selects.AreOptionsDefined
       (Some {| Selects.ID := id'; Selects.Items := SliceOf (map f items) |})
     = Selects.AreOptionsDefined
       (Some {| Selects.ID := id; Selects.Items := SliceOf items |})).
Proof.
  split; [|split].
  - intros [n d0 c o i] name cmd d initial. reflexivity.
  - intros name cmd d initial [|]; reflexivity.
  - intros id id' items f. go_run. unfold len. simpl.
    now rewrite length_map.
Qed.
